(** * Verification of the milk-txmgr transaction manager (op-service/milk-txmgr)

    Shallow embedding of [SendState] (send_state.go, the clock-aware version
    used by [SimpleTxManager.sendTx]), of the transaction crafting step
    [craftTx] / [send], of the context tree the manager derives its contexts
    from, and of the [sendTx] event loop together with its publish-and-wait
    tasks as an interleaving step relation. *)

From stdpp Require Import gmap strings list.

(** ** Go primitives *)

(** Durations and instants are nanosecond counts, as [time.Duration] and
    [time.Time] arithmetic is in Go. *)
Abbreviation Duration := Z (only parsing).
Abbreviation Time := Z (only parsing).

(** [uint64] arithmetic wraps around modulo 2^64. *)
Definition uint64_modulus : Z := (2 ^ 64)%Z.
Definition uint64_wrap (z : Z) : Z := (z mod uint64_modulus)%Z.

(** Errors: [None] is Go's [nil]. Error values are compared by identity,
    which the constructor carries. *)
Inductive go_error :=
| ErrCanceled                 (** [context.Canceled] *)
| ErrDeadlineExceeded         (** [context.DeadlineExceeded] *)
| ErrOther (msg : string).

Global Instance go_error_eq_dec : EqDecision go_error.
Proof. solve_decision. Defined.

(** A [func() time.Time] closure such as [time.Now] or the test helper
    [stepClock]: the i-th call returns [clock_at i]. The closure keeps its
    own call counter, which we thread explicitly. *)
Record Clock := mkClock {
  clock_at : nat -> Time;
  clock_calls : nat
}.

(** One call of the closure: its result and the closure after the call. *)
Definition clock_now (c : Clock) : Time * Clock :=
  (clock_at c (clock_calls c), mkClock (clock_at c) (S (clock_calls c))).

(** [stepClock(step)]: [i += 1; return start.Add(i * step)]. *)
Definition stepClock (step : Duration) : Clock :=
  mkClock (fun i => (Z.of_nat (S i) * step)%Z) 0.

(** ** SendState (src/unnamed/part_003, lines 241-331) *)

Module SendState.

Record SendState := mkSendState {
  minedTxs : gset string;
  now : Clock;
  txInMempoolDeadline : Time;
  successFullPublishCount : Z   (** uint64 *)
}.

(** [NewSendStateWithNow]: the deadline is [now().Add(unableToSendTimeout)];
    the closure stored in the state is the one that has already been called
    once. *)
Definition NewSendStateWithNow (unableToSendTimeout : Duration) (c : Clock) : SendState :=
  let '(t, c') := clock_now c in
  mkSendState ∅ c' (t + unableToSendTimeout)%Z 0%Z.

(** [ProcessSendError]: only the [err == nil] case of the switch has a body. *)
Definition ProcessSendError (err : option go_error) (s : SendState) : SendState :=
  match err with
  | None =>
      mkSendState (minedTxs s) (now s) (txInMempoolDeadline s)
                  (uint64_wrap (successFullPublishCount s + 1)%Z)
  | Some _ => s
  end.

(** [TxMined]: [s.minedTxs[txid] = struct{}{}]. *)
Definition TxMined (txid : string) (s : SendState) : SendState :=
  mkSendState ({[txid]} ∪ minedTxs s) (now s) (txInMempoolDeadline s)
              (successFullPublishCount s).

(** [TxNotMined]: [delete(s.minedTxs, txid)]. *)
Definition TxNotMined (txid : string) (s : SendState) : SendState :=
  mkSendState (minedTxs s ∖ {[txid]}) (now s) (txInMempoolDeadline s)
              (successFullPublishCount s).

(** [ShouldAbortImmediately]: [len(s.minedTxs) > 0] gives false, and the
    fall-through [return false] gives false as well. The clock is not called. *)
Definition ShouldAbortImmediately (s : SendState) : bool :=
  if bool_decide (0 < size (minedTxs s)) then false
  else false.

(** [IsWaitingForConfirmation]: [len(s.minedTxs) > 0]. *)
Definition IsWaitingForConfirmation (s : SendState) : bool :=
  bool_decide (0 < size (minedTxs s)).

(** The give-up rule of the progress tracker as the spec words it (and as
    the package's test [TestSendStateTimeoutAbort] expects it): no mined
    transaction, the not-in-pool deadline passed on the state's clock
    ([now().After(deadline)]), and no successful publish recorded. *)
Definition ShouldAbortImmediately_spec (s : SendState) : bool :=
  bool_decide (size (minedTxs s) = 0)
  && bool_decide (txInMempoolDeadline s < fst (clock_now (now s)))%Z
  && bool_decide (successFullPublishCount s = 0%Z).

(** The sequence of [TxMined]/[TxNotMined] calls on one id. *)
Inductive mined_op := OpMined | OpNotMined.

Definition apply_op (txid : string) (o : mined_op) (s : SendState) : SendState :=
  match o with
  | OpMined => TxMined txid s
  | OpNotMined => TxNotMined txid s
  end.

Definition apply_ops (txid : string) (os : list mined_op) (s : SendState) : SendState :=
  fold_left (fun acc o => apply_op txid o acc) os s.

(** [processNSendErrors(sendState, err, n)] of the package's tests. *)
Fixpoint processNSendErrors (s : SendState) (err : option go_error) (n : nat) : SendState :=
  match n with
  | O => s
  | S n => processNSendErrors (ProcessSendError err s) err n
  end.

End SendState.

(** ** Contexts (Go's [context] package, as used by the manager)

    A context is [context.Background()] or is derived from a parent by
    [WithCancel] or [WithDeadline] ([WithTimeout(p, d)] is
    [WithDeadline(p, now + d)]). A derived context records the instant its
    own cancel function was called, if it was. *)
Module Ctx.

Inductive Context :=
| Background
| WithCancel (cancelled_at : option Time) (parent : Context)
| WithDeadline (cancelled_at : option Time) (deadline : Time) (parent : Context).

(** The earlier of two causes; at equal instants the first (the parent's
    cause, which is what propagation reports) is kept. *)
Definition earliest (a b : option (Time * go_error)) : option (Time * go_error) :=
  match a, b with
  | None, _ => b
  | _, None => a
  | Some (ta, _), Some (tb, _) => if (tb <? ta)%Z then b else a
  end.

Definition own_cancel (cancelled_at : option Time) : option (Time * go_error) :=
  match cancelled_at with
  | Some t => Some (t, ErrCanceled)
  | None => None
  end.

(** When a context is done and the error its [Err()] reports from then on:
    the first of the parent's end (propagated with the parent's error), its
    own cancel ([Canceled]) and its deadline ([DeadlineExceeded]). *)
Fixpoint cause (c : Context) : option (Time * go_error) :=
  match c with
  | Background => None
  | WithCancel ca p => earliest (cause p) (own_cancel ca)
  | WithDeadline ca d p =>
      earliest (cause p) (earliest (own_cancel ca) (Some (d, ErrDeadlineExceeded)))
  end.

(** [ctx.Err()] at instant [t]. *)
Definition Err (c : Context) (t : Time) : option go_error :=
  match cause c with
  | Some (t0, e) => if (t0 <=? t)%Z then Some e else None
  | None => None
  end.

(** [ctx.Deadline()]. *)
Fixpoint Deadline (c : Context) : option Time :=
  match c with
  | Background => None
  | WithCancel _ p => Deadline p
  | WithDeadline _ d p =>
      match Deadline p with
      | Some dp => Some (Z.min dp d)
      | None => Some d
      end
  end.

Definition WithTimeout (p : Context) (now : Time) (d : Duration) : Context :=
  WithDeadline None (now + d)%Z p.

End Ctx.

(** ** Data of the manager (txmgr.go in src/op-service/milk-txmgr/txmgr_test.go,
    lines 215-584) *)

(** [models.PendingTransactionInfoResponse], the fields the manager reads. *)
Record PendingTransactionInfoResponse := mkInfo {
  PoolError : string;
  ConfirmedRound : Z   (** uint64 *)
}.

Global Instance info_eq_dec : EqDecision PendingTransactionInfoResponse.
Proof. solve_decision. Defined.

(** [types.SuggestedParams], the fields the mock backend fills in. *)
Record SuggestedParams := mkParams {
  Fee : Z;
  GenesisHash : list Byte.byte;
  FirstRoundValid : Z;
  LastRoundValid : Z
}.

(** [types.Transaction] as built by [future.MakePaymentTxn]. *)
Record Transaction := mkTxn {
  Sender : string;
  Receiver : string;
  Amount : Z;
  Note : list Byte.byte;
  Params : SuggestedParams
}.

(** [opcrypto.SignedTxn]. *)
Record SignedTxn := mkSigned {
  Txid : string;
  RawTxn : list Byte.byte;
  Txn : Transaction
}.

Record TxCandidate := mkCandidate {
  TxData : list Byte.byte;
  To : string
}.

Record Config := mkConfig {
  ResubmissionTimeout : Duration;
  ReceiptQueryInterval : Duration;
  NetworkTimeout : Duration;
  TxSendTimeout : Duration;
  TxNotInMempoolTimeout : Duration;
  From : string
}.

(** The collaborators of [craftTx]: the backend's [SuggestedParams] (which
    sees the context it is called with), the SDK's [MakePaymentTxn] and the
    configured [Signer]. Their results are Go's [(value, error)] pairs. *)
Record Collaborators := mkCollab {
  backend_SuggestedParams : Ctx.Context -> SuggestedParams + go_error;
  MakePaymentTxn : string -> string -> Z -> list Byte.byte -> string ->
                   SuggestedParams -> Transaction + go_error;
  Signer : Transaction -> SignedTxn + go_error
}.

(** A backend call issued by the manager, with the context it was issued
    under. *)
Inductive backend_call :=
| CallSuggestedParams (ctx : Ctx.Context)
| CallSendTransaction (ctx : Ctx.Context) (tx : SignedTxn)
| CallPendingTransactionInformation (ctx : Ctx.Context) (txid : string).

(** [fmt.Errorf("...: %w", err)]. *)
Definition wrap (prefix : string) (e : go_error) : go_error :=
  ErrOther (prefix ++ ": " ++ match e with
                              | ErrCanceled => "context canceled"
                              | ErrDeadlineExceeded => "context deadline exceeded"
                              | ErrOther m => m
                              end).

(** [craftTx]: one [SuggestedParams] call under [context.Background()],
    then [MakePaymentTxn(from, to, 0, candidate.TxData, "", sp)], then
    [m.cfg.Signer(tx)]. Returns the signed transaction or the error, and
    the backend calls it issued. The caller's [ctx] is a parameter, as in
    the source, and is not used. *)
Definition craftTx (co : Collaborators) (cfg : Config) (ctx : Ctx.Context)
    (candidate : TxCandidate) : (SignedTxn + go_error) * list backend_call :=
  let calls := [CallSuggestedParams Ctx.Background] in
  match backend_SuggestedParams co Ctx.Background with
  | inr err => (inr (wrap "failed to get suggested params" err), calls)
  | inl sp =>
      match MakePaymentTxn co (From cfg) (To candidate) 0 (TxData candidate) "" sp with
      | inr err => (inr (wrap "failed to create payment transaction" err), calls)
      | inl tx => (Signer co tx, calls)
      end
  end.

(** How [send] proceeds: it fails before any publication, or it enters
    [sendTx] with the context it derived and the crafted transaction. *)
Inductive send_outcome :=
| SendFailed (err : go_error)
| EnterSendTx (ctx : Ctx.Context) (tx : SignedTxn).

(** [send] up to the call of [sendTx]: the optional [TxSendTimeout] context
    (its cancel is deferred, so not yet called), then [craftTx]. *)
Definition send (co : Collaborators) (cfg : Config) (start : Time) (ctx : Ctx.Context)
    (candidate : TxCandidate) : send_outcome * list backend_call :=
  let ctx := if decide (TxSendTimeout cfg = 0%Z) then ctx
             else Ctx.WithTimeout ctx start (TxSendTimeout cfg) in
  let '(r, calls) := craftTx co cfg ctx candidate in
  match r with
  | inr err => (SendFailed (wrap "failed to create the tx" err), calls)
  | inl tx => (EnterSendTx ctx tx, calls)
  end.

(** [sendTx]'s own context: [context.WithCancel(ctx)], cancelled by the
    deferred [cancel()] only when [sendTx] returns. *)
Definition sendTx_ctx (ctx : Ctx.Context) : Ctx.Context := Ctx.WithCancel None ctx.

(** The context of one [SendTransaction] in [publishAndWaitForTx]
    ([context.WithTimeout(ctx, m.cfg.NetworkTimeout)]) and of one
    [PendingTransactionInformation] in [queryReceipt]. *)
Definition network_ctx (cfg : Config) (ctx : Ctx.Context) (t : Time) : Ctx.Context :=
  Ctx.WithTimeout ctx t (NetworkTimeout cfg).

(** ** The [sendTx] event loop and its publish-and-wait tasks

    [sendTx] runs one goroutine per publication ([publishAndWaitForTx]) next
    to its own [select] loop. We embed the whole as an interleaving: a
    scheduler event picks which goroutine makes its next step, and [step]
    refuses events whose [select] case or call is not ready. *)
Module Loop.
Import SendState.

(** The result of one [PendingTransactionInformation] call: an error, or
    an info pointer that may be [nil]. *)
Inductive rpc_result :=
| RpcErr (e : go_error)
| RpcOk (info : option PendingTransactionInfoResponse).

(** [queryReceipt]: the receipt to return (if any) and the updated
    [SendState]. [info.ConfirmedRound <= 0] on a [uint64]. *)
Definition queryReceipt (txid : string) (res : rpc_result) (ss : SendState)
    : option PendingTransactionInfoResponse * SendState :=
  match res with
  | RpcErr _ => (None, ss)
  | RpcOk None => (None, TxNotMined txid ss)
  | RpcOk (Some info) =>
      if decide (ConfirmedRound info <= 0)%Z then (None, TxNotMined txid ss)
      else if decide (PoolError info <> "") then (None, TxNotMined txid ss)
      else (Some info, TxMined txid ss)
  end.

(** Where a spawned goroutine is: before [SendTransaction], inside
    [waitMined], or returned (its deferred [wg.Done()] has run). *)
Inductive task :=
| TPublishing (tx : SignedTxn)
| TWaiting (tx : SignedTxn)
| TExited.

(** What [sendTx] returns: the receipt pointer and the error. *)
Definition ret := (option PendingTransactionInfoResponse * option go_error)%type.

(** The loop is running, or a [return] statement has been reached and the
    deferred calls run ([ticker.Stop()], [cancel()], then [wg.Wait()]),
    or the call has returned. *)
Inductive phase :=
| Looping
| Deferring (r : ret)
| Returned (r : ret).

Record LoopState := mkLoopState {
  ls_send : SendState;                 (** [sendState] *)
  ls_chan : option PendingTransactionInfoResponse;  (** [receiptChan], capacity 1 *)
  ls_tasks : list task;                (** the spawned goroutines, in spawn order *)
  ls_wg : nat;                         (** the [sync.WaitGroup] counter *)
  ls_ctx_err : option go_error;        (** [ctx.Err()] of [sendTx]'s context *)
  ls_phase : phase;
  ls_tx : SignedTxn;                   (** the [tx] argument *)
  ls_offers : list (PendingTransactionInfoResponse * bool)
    (** history of the non-blocking sends on [receiptChan]: the receipt
        and whether the [case receiptChan <- receipt] branch was taken *)
}.

(** Scheduler events. *)
Inductive event :=
| ETick                          (** loop: [case <-ticker.C] *)
| EDone                          (** loop: [case <-ctx.Done()] *)
| ERecv                          (** loop: [case receipt := <-receiptChan] *)
| EPublish (i : nat) (err : option go_error)
    (** task i: [SendTransaction] returns [err] *)
| EPoll (i : nat) (res : rpc_result)
    (** task i: [case <-queryTicker.C] of [waitMined], then [queryReceipt] *)
| ETaskCtxDone (i : nat)         (** task i: [case <-ctx.Done()] of [waitMined] *)
| ECtxEnd (e : go_error)         (** the parent context ends with [e] *)
| EWaitDone.                     (** the deferred [wg.Wait()] returns *)

Definition abort_error : go_error := ErrOther "aborted transaction sending".

(** [sendTx] up to its loop: [wg.Add(1); go sendTxAsync(tx)]. [ctx_err] is
    the [Err()] of its context on entry. *)
Definition init (tx : SignedTxn) (clk : Clock) (cfg : Config) (ctx_err : option go_error)
    : LoopState :=
  mkLoopState (NewSendStateWithNow (TxNotInMempoolTimeout cfg) clk) None
              [TPublishing tx] 1 ctx_err Looping tx [].

Definition set_send (ss : SendState) (st : LoopState) : LoopState :=
  mkLoopState ss (ls_chan st) (ls_tasks st) (ls_wg st) (ls_ctx_err st)
              (ls_phase st) (ls_tx st) (ls_offers st).

(** A [return r] of [sendTx]: the deferred [cancel()] cancels its context
    (no effect if it is already done). *)
Definition do_return (r : ret) (st : LoopState) : LoopState :=
  mkLoopState (ls_send st) (ls_chan st) (ls_tasks st) (ls_wg st)
              (match ls_ctx_err st with None => Some ErrCanceled | e => e end)
              (Deferring r) (ls_tx st) (ls_offers st).

(** [wg.Add(1); go sendTxAsync(tx)] on the same [tx]. *)
Definition spawn (st : LoopState) : LoopState :=
  mkLoopState (ls_send st) (ls_chan st) (ls_tasks st ++ [TPublishing (ls_tx st)])
              (S (ls_wg st)) (ls_ctx_err st) (ls_phase st) (ls_tx st) (ls_offers st).

(** Goroutine [i] returns: its [defer wg.Done()]. *)
Definition task_exit (i : nat) (st : LoopState) : LoopState :=
  mkLoopState (ls_send st) (ls_chan st) (<[i:=TExited]> (ls_tasks st))
              (Nat.pred (ls_wg st)) (ls_ctx_err st) (ls_phase st) (ls_tx st) (ls_offers st).

Definition set_task (i : nat) (t : task) (st : LoopState) : LoopState :=
  mkLoopState (ls_send st) (ls_chan st) (<[i:=t]> (ls_tasks st))
              (ls_wg st) (ls_ctx_err st) (ls_phase st) (ls_tx st) (ls_offers st).

(** [select { case receiptChan <- receipt: ... default: }]. *)
Definition offer (r : PendingTransactionInfoResponse) (st : LoopState) : LoopState :=
  match ls_chan st with
  | None => mkLoopState (ls_send st) (Some r) (ls_tasks st) (ls_wg st) (ls_ctx_err st)
                        (ls_phase st) (ls_tx st) (ls_offers st ++ [(r, true)])
  | Some _ => mkLoopState (ls_send st) (ls_chan st) (ls_tasks st) (ls_wg st) (ls_ctx_err st)
                          (ls_phase st) (ls_tx st) (ls_offers st ++ [(r, false)])
  end.

(** The loop's [case <-ticker.C]. *)
Definition tick (st : LoopState) : LoopState :=
  if IsWaitingForConfirmation (ls_send st) then st
  else if ShouldAbortImmediately (ls_send st) then do_return (None, Some abort_error) st
  else spawn st.

Definition step (st : LoopState) (ev : event) : option LoopState :=
  match ev with
  | ETick =>
      match ls_phase st with Looping => Some (tick st) | _ => None end
  | EDone =>
      match ls_phase st, ls_ctx_err st with
      | Looping, Some e => Some (do_return (None, Some e) st)
      | _, _ => None
      end
  | ERecv =>
      match ls_phase st, ls_chan st with
      | Looping, Some r =>
          Some (do_return (Some r, None)
                  (mkLoopState (ls_send st) None (ls_tasks st) (ls_wg st) (ls_ctx_err st)
                               (ls_phase st) (ls_tx st) (ls_offers st)))
      | _, _ => None
      end
  | EPublish i err =>
      match ls_tasks st !! i with
      | Some (TPublishing tx) =>
          let st := set_send (ProcessSendError err (ls_send st)) st in
          match err with
          | Some _ => Some (task_exit i st)
          | None => Some (set_task i (TWaiting tx) st)
          end
      | _ => None
      end
  | EPoll i res =>
      match ls_tasks st !! i with
      | Some (TWaiting tx) =>
          let '(r, ss) := queryReceipt (Txid tx) res (ls_send st) in
          let st := set_send ss st in
          match r with
          | None => Some st
          | Some info => Some (task_exit i (offer info st))
          end
      | _ => None
      end
  | ETaskCtxDone i =>
      match ls_tasks st !! i, ls_ctx_err st with
      | Some (TWaiting _), Some _ => Some (task_exit i st)
      | _, _ => None
      end
  | ECtxEnd e =>
      match ls_ctx_err st with
      | None => Some (mkLoopState (ls_send st) (ls_chan st) (ls_tasks st) (ls_wg st) (Some e)
                                  (ls_phase st) (ls_tx st) (ls_offers st))
      | Some _ => Some st
      end
  | EWaitDone =>
      match ls_phase st with
      | Deferring r =>
          if decide (ls_wg st = 0) then
            Some (mkLoopState (ls_send st) (ls_chan st) (ls_tasks st) (ls_wg st)
                              (ls_ctx_err st) (Returned r) (ls_tx st) (ls_offers st))
          else None
      | _ => None
      end
  end.

Fixpoint run (st : LoopState) (evs : list event) : option LoopState :=
  match evs with
  | [] => Some st
  | ev :: evs => match step st ev with
                 | Some st' => run st' evs
                 | None => None
                 end
  end.

(** The value [sendTx] has decided to return, once it has. *)
Definition result (st : LoopState) : option ret :=
  match ls_phase st with
  | Looping => None
  | Deferring r | Returned r => Some r
  end.

(** The number of spawned goroutines that have not returned. *)
Fixpoint live_count (l : list task) : nat :=
  match l with
  | [] => 0
  | TExited :: l => live_count l
  | _ :: l => S (live_count l)
  end.

(** The [sync.WaitGroup] counter is the number of live goroutines. *)
Definition WgInv (st : LoopState) : Prop := ls_wg st = live_count (ls_tasks st).

(** While the loop runs, [receiptChan] is empty exactly when nothing has
    been offered, and otherwise holds the first offered receipt; once a
    receipt is the decided result, it is the first offered one. *)
Definition ChanInv (st : LoopState) : Prop :=
  match ls_phase st with
  | Looping =>
      (ls_chan st = None /\ ls_offers st = [])
      \/ (exists r, ls_chan st = Some r /\ head (ls_offers st) = Some (r, true))
  | Deferring x | Returned x =>
      forall r e, x = (Some r, e) -> e = None /\ head (ls_offers st) = Some (r, true)
  end.

(** Once [sendTx] has returned, its WaitGroup counter is zero. *)
Definition ReturnedInv (st : LoopState) : Prop :=
  forall r, ls_phase st = Returned r -> ls_wg st = 0.

End Loop.

(** ** Concrete inputs, after the package's tests and mock backend *)
Module Scenario.
Import Loop.

(** [mockBackend.SuggestedParams]. *)
Definition mock_params : SuggestedParams := mkParams 5000 [] 1 1000.

Definition cfg : Config := mkConfig 1000000000 50000000 1000000000 0 3600000000000 "SENDER".

Definition candidate : TxCandidate := mkCandidate [] "SENDER".

(** Collaborators that succeed: [MakePaymentTxn] builds the payment and the
    signer returns a transaction with id ["TX1"]. *)
Definition co_ok : Collaborators :=
  mkCollab (fun _ => inl mock_params)
           (fun from to amt note _ sp => inl (mkTxn from to amt note sp))
           (fun t => inl (mkSigned "TX1" [] t)).

(** Collaborators whose [SuggestedParams] call fails. *)
Definition co_params_fail : Collaborators :=
  mkCollab (fun _ => inr (ErrOther "connection refused"))
           (fun from to amt note _ sp => inl (mkTxn from to amt note sp))
           (fun t => inl (mkSigned "TX1" [] t)).

(** Collaborators whose signer fails. *)
Definition co_sign_fail : Collaborators :=
  mkCollab (fun _ => inl mock_params)
           (fun from to amt note _ sp => inl (mkTxn from to amt note sp))
           (fun _ => inr (ErrOther "invalid key")).

Definition stx : SignedTxn :=
  mkSigned "TX1" [] (mkTxn "SENDER" "SENDER" 0 [] mock_params).

(** The info [mockBackend.PendingTransactionInformation] returns for a
    transaction confirmed in round 1. *)
Definition confirmed : PendingTransactionInfoResponse := mkInfo "" 1.

Definition st0 : LoopState := init stx (stepClock 1) cfg None.

(** A tick spawns a second task; both publish; the first finds the receipt
    and offers it; the loop receives it; then the second task finds the
    receipt and offers it too. *)
Definition trace_late_offer : list event :=
  [ETick; EPublish 0 None; EPublish 1 None; EPoll 0 (RpcOk (Some confirmed));
   ERecv; EPoll 1 (RpcOk (Some confirmed)); EWaitDone].

(** Both tasks find the receipt and offer it, the caller's deadline passes,
    and the loop takes its [ctx.Done()] case. *)
Definition trace_cancel_race : list event :=
  [ETick; EPublish 0 None; EPublish 1 None; EPoll 0 (RpcOk (Some confirmed));
   EPoll 1 (RpcOk (Some confirmed)); ECtxEnd ErrDeadlineExceeded; EDone; EWaitDone].

End Scenario.

(** ** Error strings and [errStringMatch] (txmgr_test.go, lines 575-584) *)
Module Errors.

(** [err.Error()] of the errors the manager sees. *)
Definition Error (e : go_error) : string :=
  match e with
  | ErrCanceled => "context canceled"
  | ErrDeadlineExceeded => "context deadline exceeded"
  | ErrOther m => m
  end.

(** [strings.Contains(s, substr)]: [substr] occurs in [s] at some offset. *)
Fixpoint Contains (s substr : string) : bool :=
  String.prefix substr s
  || match s with
     | EmptyString => false
     | String _ s' => Contains s' substr
     end.

(** [errStringMatch(err, target)]. *)
Definition errStringMatch (err target : option go_error) : bool :=
  match err, target with
  | None, None => true
  | None, _ | _, None => false
  | Some e, Some t => Contains (Error e) (Error t)
  end.

End Errors.

(** ** Transaction metrics (src/unnamed/part_002) *)
Module Metrics.

(** The counters of [TxMetrics] that [publishAndWaitForTx] touches:
    [publishEvent], the [txPublishError] counter vector by label, and
    [rpcError]. *)
Record TxMetrics := mkTxMetrics {
  publishEvent : nat;
  txPublishError : gmap string nat;
  rpcError : nat
}.

(** [TxPublished(errString)] (lines 122-128). *)
Definition TxPublished (errString : string) (t : TxMetrics) : TxMetrics :=
  if decide (errString <> "") then
    mkTxMetrics (publishEvent t)
                (<[errString := S (default 0 (txPublishError t !! errString))]> (txPublishError t))
                (rpcError t)
  else mkTxMetrics (S (publishEvent t)) (txPublishError t) (rpcError t).

(** [RPCError()]. *)
Definition RPCError (t : TxMetrics) : TxMetrics :=
  mkTxMetrics (publishEvent t) (txPublishError t) (S (rpcError t)).

(** The metric calls of [publishAndWaitForTx] once [SendTransaction] has
    returned [err] (txmgr_test.go, lines 503-518). *)
Definition publish_metrics (err : option go_error) (t : TxMetrics) : TxMetrics :=
  match err with
  | None => TxPublished "" t
  | Some e =>
      if Errors.errStringMatch (Some e) (Some ErrCanceled)
      then TxPublished "context_cancelled" (RPCError t)
      else TxPublished "unknown_error" (RPCError t)
  end.

(** [receiptStatusString(receipt)] (lines 32-40). [None] stands for the
    nil pointer dereference of [receipt.PoolError] when [receipt] is nil. *)
Definition receiptStatusString (receipt : option PendingTransactionInfoResponse)
    : option string :=
  match receipt with
  | None => None
  | Some r =>
      if decide (PoolError r = "" /\ 0 < ConfirmedRound r)%Z then Some "success"
      else if decide (PoolError r <> "") then Some "failed"
      else Some "unknown_status"
  end.

End Metrics.

(** ** Configuration (src/op-service/txmgr/cli.go, lines 99-180) *)
Module CLI.

(** [CLIConfig] without [SignerCLIConfig], whose [Check()] belongs to the
    op-signer client and enters [Check] as its result. *)
Record CLIConfig := mkCLIConfig {
  L1RPCURL : string;
  L1RPCToken : string;
  Mnemonic : string;
  HDPath : string;
  SequencerHDPath : string;
  L2OutputHDPath : string;
  PrivateKey : string;
  ResubmissionTimeout : Duration;
  ReceiptQueryInterval : Duration;
  NetworkTimeout : Duration;
  TxSendTimeout : Duration;
  TxNotInMempoolTimeout : Duration
}.

(** [CLIConfig.Check()]; [signerCheck] is [m.SignerCLIConfig.Check()]. *)
Definition Check (signerCheck : option go_error) (m : CLIConfig) : option go_error :=
  if decide (L1RPCURL m = "") then Some (ErrOther "must provide a L1 RPC url")
  else if decide (NetworkTimeout m = 0%Z) then Some (ErrOther "must provide NetworkTimeout")
  else if decide (ResubmissionTimeout m = 0%Z) then Some (ErrOther "must provide ResubmissionTimeout")
  else if decide (ReceiptQueryInterval m = 0%Z) then Some (ErrOther "must provide ReceiptQueryInterval")
  else if decide (TxNotInMempoolTimeout m = 0%Z) then Some (ErrOther "must provide TxNotInMempoolTimeout")
  else signerCheck.

(** [NewConfig(cfg, l)]. [NewAlgodClient(url, token)] is given by its error
    and [opcrypto.CreateSignerFn(key)] by the [from] address or its error;
    the backend and the signer function themselves are not part of
    [Config] here (they are the [Collaborators]). *)
Definition NewConfig (signerCheck : option go_error)
    (NewAlgodClient : string -> string -> option go_error)
    (CreateSignerFn : string -> string + go_error)
    (cfg : CLIConfig) : Config + go_error :=
  match Check signerCheck cfg with
  | Some err => inr (wrap "invalid config" err)
  | None =>
      match NewAlgodClient (L1RPCURL cfg) (L1RPCToken cfg) with
      | Some err => inr (wrap "could not dial algod client" err)
      | None =>
          match CreateSignerFn (PrivateKey cfg) with
          | inr err => inr (wrap "could not init signer" err)
          | inl from =>
              inl (mkConfig (ResubmissionTimeout cfg) (ReceiptQueryInterval cfg)
                            (NetworkTimeout cfg) (TxSendTimeout cfg)
                            (TxNotInMempoolTimeout cfg) from)
          end
      end
  end.

End CLI.

(** ** Block references (package algo, src/unnamed/part_004, lines 15-64) *)
Module Algo.

Module BlockID.
Record t := mk {
  Hash : string;
  Number : Z   (** uint64 *)
}.
End BlockID.

Record L1BlockRef := mkL1BlockRef {
  Hash : string;
  Number : Z;       (** uint64 *)
  ParentHash : string;
  Time : Z          (** uint64 *)
}.

(** [L1BlockRef.ID()]. *)
Definition ID (id : L1BlockRef) : BlockID.t := BlockID.mk (Hash id) (Number id).

(** [L1BlockRef.ParentID()]: [n -= 1] on a [uint64], guarded by [n > 0]. *)
Definition ParentID (id : L1BlockRef) : BlockID.t :=
  let n := BlockID.Number (ID id) in
  let n := if decide (0 < n)%Z then uint64_wrap (n - 1) else n in
  BlockID.mk (ParentHash id) n.

End Algo.

(** ** [AlgodClient.HeaderByNumber] (milk-txmgr/txmgr.go, lines 108-133) *)
Module Algod.
Import Algo.

(** The fields of the SDK's block the method reads. *)
Record Block := mkBlock {
  Round : Z;        (** uint64 *)
  TimeStamp : Z;    (** int64 *)
  Branch : list Byte.byte
}.

(** The three node queries, as Go's [(value, error)] pairs: [Status()]
    gives the last round. *)
Record AlgodApi := mkAlgodApi {
  Status : Z + go_error;
  BlockAt : Z -> Block + go_error;
  GetBlockHash : Z -> string + go_error
}.

Inductive algod_call :=
| CallStatus
| CallBlock (round : Z)
| CallGetBlockHash (round : Z).

(** [algo.L1BlockRef{}]. *)
Definition zero_ref : L1BlockRef := mkL1BlockRef "" 0 "" 0.

Section HeaderByNumber.

(** [base64.StdEncoding.EncodeToString] of Go's standard library. *)
Variable EncodeToString : list Byte.byte -> string.

(** Everything after the round is known: [Block(round)], then
    [GetBlockHash(round)]. *)
Definition header_at (c : AlgodApi) (round : Z)
    : (L1BlockRef * option go_error) * list algod_call :=
  match BlockAt c round with
  | inr err => ((zero_ref, Some err), [CallBlock round])
  | inl block =>
      match GetBlockHash c round with
      | inr err => ((zero_ref, Some err), [CallBlock round; CallGetBlockHash round])
      | inl blockhash =>
          ((mkL1BlockRef blockhash (Round block) (EncodeToString (Branch block))
                         (uint64_wrap (TimeStamp block)), None),
           [CallBlock round; CallGetBlockHash round])
      end
  end.

Definition HeaderByNumber (c : AlgodApi) (round : Z)
    : (L1BlockRef * option go_error) * list algod_call :=
  if decide (round = 0%Z) then
    match Status c with
    | inr err => ((zero_ref, Some err), [CallStatus])
    | inl lastRound =>
        let '(r, calls) := header_at c lastRound in (r, CallStatus :: calls)
    end
  else header_at c round.

End HeaderByNumber.

End Algod.

(** ** The earlier manager's [waitConfirmed] (milk-txmgr/txmgr.go,
    lines 278-326) with its [SendState] (milk-txmgr/send_state.go) *)
Module OldTxmgr.
Import Loop.

(** The earlier [SendState] holds only [minedTxs]; a nil [*SendState] is
    [None]. *)
Definition OldSendState := gset string.

Definition TxMined (txid : string) (s : option OldSendState) : option OldSendState :=
  match s with Some m => Some ({[txid]} ∪ m) | None => None end.

Definition TxNotMined (txid : string) (s : option OldSendState) : option OldSendState :=
  match s with Some m => Some (m ∖ {[txid]}) | None => None end.

(** [waitConfirmed] over the answers to its successive
    [PendingTransactionInformation] calls, each paired with the outcome of
    the [select] that follows it when the switch does not return: [Some e]
    is the [ctx.Done()] case with [ctx.Err() = e], [None] the ticker. When
    the answers run out the call has not returned yet ([None]). *)
Fixpoint waitConfirmed (txid : string) (sendState : option OldSendState)
    (polls : list (rpc_result * option go_error))
    : option (option PendingTransactionInfoResponse * option go_error) * option OldSendState :=
  match polls with
  | [] => (None, sendState)
  | (res, sel) :: rest =>
      let continue := fun ss =>
        match sel with
        | Some e => (Some (None, Some e), ss)
        | None => waitConfirmed txid ss rest
        end in
      match res with
      | RpcOk (Some info) =>
          if decide (0 < ConfirmedRound info)%Z then
            (Some (Some info, None), TxMined txid sendState)
          else if decide (PoolError info <> "") then
            (Some (None, Some (ErrOther ("Pool error: " ++ PoolError info))),
             TxNotMined txid sendState)
          else continue sendState
      | RpcErr _ => continue sendState
      | RpcOk None => continue (TxNotMined txid sendState)
      end
  end.

End OldTxmgr.

(** ** The tests' [mockBackend] (txmgr_test.go, lines 78-131) *)
Module MockBackend.
Import Loop.

Record minedTxInfo := mkMinedTxInfo {
  confirmedRound : Z;   (** uint64 *)
  poolError : string
}.

Record mockBackend := mkMockBackend {
  blockHeight : Z;      (** uint64 *)
  minedTxs : gmap string minedTxInfo
}.

Definition newMockBackend : mockBackend := mkMockBackend 0 ∅.

(** [confirm(txid)]: a new block, which includes [txid] unless it is empty. *)
Definition confirm (txid : string) (b : mockBackend) : mockBackend :=
  let h := uint64_wrap (blockHeight b + 1) in
  mkMockBackend h (if decide (txid <> "") then <[txid := mkMinedTxInfo h ""]> (minedTxs b)
                   else minedTxs b).

(** [PendingTransactionInformation(ctx, txid)]. *)
Definition PendingTransactionInformation (b : mockBackend) (txid : string) : rpc_result :=
  match minedTxs b !! txid with
  | None => RpcOk None
  | Some txInfo => RpcOk (Some (mkInfo (poolError txInfo) (confirmedRound txInfo)))
  end.

End MockBackend.

(** ** Further invariants of the [sendTx] loop *)
Module LoopInv.
Import SendState Loop.

(** A receipt [queryReceipt] lets through: confirmed, no pool error. *)
Definition confirmed_receipt (r : PendingTransactionInfoResponse) : Prop :=
  (0 < ConfirmedRound r)%Z /\ PoolError r = "".

(** Every receipt offered on [receiptChan], held in it, or decided as the
    result is confirmed. *)
Definition ReceiptInv (st : LoopState) : Prop :=
  Forall (fun o => confirmed_receipt o.1) (ls_offers st)
  /\ (forall r, ls_chan st = Some r -> confirmed_receipt r)
  /\ (forall r e, result st = Some (Some r, e) -> confirmed_receipt r).

(** Every goroutine publishes or waits for the [tx] of the call, and the
    progress tracker only ever records that transaction's id. *)
Definition TxInv (st : LoopState) : Prop :=
  Forall (fun t => match t with
                   | TPublishing tx | TWaiting tx => tx = ls_tx st
                   | TExited => True
                   end) (ls_tasks st)
  /\ minedTxs (ls_send st) ⊆ {[Txid (ls_tx st)]}.

(** The number of successful [SendTransaction] calls in a schedule. *)
Fixpoint successful_publishes (evs : list event) : nat :=
  match evs with
  | [] => 0
  | EPublish _ None :: evs => S (successful_publishes evs)
  | _ :: evs => successful_publishes evs
  end.

End LoopInv.

(** * Properties *)

Module SendStateProps.
Import SendState.

Lemma processN_nil_count (n : nat) (s : SendState) :
  (0 <= successFullPublishCount s < uint64_modulus)%Z ->
  successFullPublishCount (processNSendErrors s None n)
  = uint64_wrap (successFullPublishCount s + Z.of_nat n)%Z.
Proof.
  unfold uint64_wrap. revert s. induction n as [|n IH]; intros s Hs; simpl.
  - rewrite Z.add_0_r, Z.mod_small; lia.
  - rewrite IH; cbn [ProcessSendError successFullPublishCount].
    + unfold uint64_wrap. rewrite Zplus_mod_idemp_l. f_equal. lia.
    + cbn [ProcessSendError successFullPublishCount]. unfold uint64_wrap.
      apply Z.mod_pos_bound. unfold uint64_modulus. lia.
Qed.

Lemma processN_some (n : nat) (s : SendState) (e : go_error) :
  processNSendErrors s (Some e) n = s.
Proof. revert s. induction n; intros s; simpl; auto. Qed.

Lemma mined_ops_other (txid j : string) (os : list mined_op) (s : SendState) :
  j <> txid -> (j ∈ minedTxs (apply_ops txid os s) <-> j ∈ minedTxs s).
Proof.
  intros Hne. unfold apply_ops. revert s.
  induction os as [|o os IH]; intros s; simpl; [done|].
  rewrite IH. destruct o; simpl; set_solver.
Qed.

Lemma mined_ops_last (txid : string) (os : list mined_op) (s : SendState) :
  txid ∈ minedTxs (apply_ops txid os s) <->
  match last os with
  | Some OpMined => True
  | Some OpNotMined => False
  | None => txid ∈ minedTxs s
  end.
Proof.
  unfold apply_ops. revert s.
  induction os as [|o os IH]; intros s; simpl; [done|].
  rewrite IH. destruct os as [|o' os'].
  - destruct o; simpl; set_solver.
  - change (last (o :: o' :: os')) with (last (o' :: os')).
    destruct (last (o' :: os')) as [[]|] eqn:E; try tauto.
    apply last_None in E. discriminate.
Qed.

Lemma ShouldAbortImmediately_false (s : SendState) : ShouldAbortImmediately s = false.
Proof. unfold ShouldAbortImmediately. by case_bool_decide. Qed.

(** Claim C1 (code_bug). [TestSendStateTimeoutAbort]: a state built with a
    10ms not-in-pool timeout on [stepClock(20ms)] has its deadline (30ms)
    passed at the next clock reading (40ms), no mined transaction and no
    successful publish, so the spec's rule gives true; the code's
    [ShouldAbortImmediately] returns false (it returns false on every
    state, [ShouldAbortImmediately_false]). *)
Theorem ShouldAbortImmediately_timeout_ignored :
  let s := NewSendStateWithNow 10000000 (stepClock 20000000) in
  ShouldAbortImmediately s = false /\ ShouldAbortImmediately_spec s = true.
Proof. split; [apply ShouldAbortImmediately_false | vm_compute; reflexivity]. Qed.

(** Claim C8. [ProcessSendError(nil)] increments [successFullPublishCount]
    by one as a [uint64] (modulo 2^64) and leaves the other fields alone;
    a non-nil error leaves the state unchanged. Repeated from a fresh state,
    n nil errors give a count of n (modulo 2^64) and n non-nil errors give
    the state back. *)
Theorem ProcessSendError_counts_nil_only (s : SendState) (e : go_error) :
  successFullPublishCount (ProcessSendError None s)
    = uint64_wrap (successFullPublishCount s + 1)%Z
  /\ minedTxs (ProcessSendError None s) = minedTxs s
  /\ now (ProcessSendError None s) = now s
  /\ txInMempoolDeadline (ProcessSendError None s) = txInMempoolDeadline s
  /\ ProcessSendError (Some e) s = s
  /\ (forall (d : Duration) (c : Clock) (n : nat),
        successFullPublishCount (processNSendErrors (NewSendStateWithNow d c) None n)
        = uint64_wrap (Z.of_nat n))
  /\ (forall n : nat, processNSendErrors s (Some e) n = s).
Proof.
  split_and!; try reflexivity.
  - intros d c n. rewrite processN_nil_count.
    + reflexivity.
    + unfold NewSendStateWithNow, clock_now, uint64_modulus; simpl. lia.
  - intros n. apply processN_some.
Qed.

(** Claim C9. Marking an id mined and then not mined leaves the tracker
    not waiting for confirmation when no other id is in the mined set;
    [TxMined] and [TxNotMined] are set insert and remove: repeating either
    has no further effect, other ids are untouched, and after any sequence
    of the two calls on one id its membership is decided by the last call. *)
Theorem TxMined_TxNotMined_not_waiting (txid : string) (s : SendState)
    (Hothers : minedTxs s ⊆ {[txid]}) :
  IsWaitingForConfirmation (TxNotMined txid (TxMined txid s)) = false
  /\ (forall (j : string) (s' : SendState), TxMined j (TxMined j s') = TxMined j s')
  /\ (forall (j : string) (s' : SendState), TxNotMined j (TxNotMined j s') = TxNotMined j s')
  /\ (forall (os : list mined_op),
        txid ∈ minedTxs (apply_ops txid os s) <->
        match last os with
        | Some OpMined => True
        | Some OpNotMined => False
        | None => txid ∈ minedTxs s
        end)
  /\ (forall (j : string) (os : list mined_op),
        j <> txid -> (j ∈ minedTxs (apply_ops txid os s) <-> j ∈ minedTxs s)).
Proof.
  split_and!.
  - unfold IsWaitingForConfirmation, TxNotMined, TxMined; simpl.
    assert (Hempty : ({[txid]} ∪ minedTxs s) ∖ {[txid]} = (∅ : gset string)) by set_solver.
    rewrite Hempty, size_empty. reflexivity.
  - intros j s'. unfold TxMined; simpl. f_equal. set_solver.
  - intros j s'. unfold TxNotMined; simpl. f_equal. set_solver.
  - intros os. apply mined_ops_last.
  - intros j os Hne. by apply mined_ops_other.
Qed.

Lemma TxMined_TxNotMined_not_waiting_witness :
  ∅ ⊆ ({["aabb"]} : gset string)
  /\ IsWaitingForConfirmation
       (TxNotMined "aabb" (TxMined "aabb" (NewSendStateWithNow 3600000000000 (stepClock 1))))
     = false.
Proof.
  assert (H : ∅ ⊆ ({["aabb"]} : gset string))
    by (apply (bool_decide_unpack _); vm_compute; reflexivity).
  split; [exact H|].
  apply (TxMined_TxNotMined_not_waiting "aabb" (NewSendStateWithNow 3600000000000 (stepClock 1)) H).
Defined.

End SendStateProps.

Module LoopProps.
Import SendState Loop.

Ltac step_cases H :=
  unfold step, tick, do_return, spawn, task_exit, set_task, set_send, offer in H;
  repeat (case_match; simplify_eq/=); simplify_eq/=.

Lemma run_app (st : LoopState) (evs1 evs2 : list event) :
  run st (evs1 ++ evs2) = match run st evs1 with
                          | Some st' => run st' evs2
                          | None => None
                          end.
Proof.
  revert st. induction evs1 as [|ev evs1 IH]; intros st; simpl; [done|].
  destruct (step st ev); auto.
Qed.

(** Lifting a property preserved by [step] to [run]. *)
Lemma run_preserves (P : LoopState -> Prop) :
  (forall st ev st', step st ev = Some st' -> P st -> P st') ->
  forall evs st st', run st evs = Some st' -> P st -> P st'.
Proof.
  intros Hstep evs. induction evs as [|ev evs IH]; intros st st' Hrun HP; simpl in Hrun.
  - by simplify_eq.
  - destruct (step st ev) as [st1|] eqn:E; [|done].
    eapply IH; [exact Hrun|]. eapply Hstep; eauto.
Qed.

Lemma live_count_app (l : list task) (tx : SignedTxn) :
  live_count (l ++ [TPublishing tx]) = S (live_count l).
Proof. induction l as [|[] l IH]; simpl; auto. Qed.

Lemma live_count_exit (l : list task) (i : nat) (t : task) :
  l !! i = Some t -> t <> TExited -> S (live_count (<[i:=TExited]> l)) = live_count l.
Proof.
  revert i. induction l as [|t0 l IH]; intros i Hl Ht; [done|].
  destruct i as [|i]; simpl in *.
  - simplify_eq. destruct t; done.
  - rewrite <- (IH i Hl Ht). destruct t0; simpl; auto.
Qed.

Lemma live_count_wait (l : list task) (i : nat) (tx tx' : SignedTxn) :
  l !! i = Some (TPublishing tx) -> live_count (<[i:=TWaiting tx']> l) = live_count l.
Proof.
  revert i. induction l as [|t0 l IH]; intros i Hl; [done|].
  destruct i as [|i]; simpl in *.
  - by simplify_eq.
  - rewrite (IH i Hl). destruct t0; simpl; auto.
Qed.

Lemma live_count_zero (l : list task) :
  live_count l = 0 -> Forall (fun t => t = TExited) l.
Proof. induction l as [|[] l IH]; simpl; intros H; try done; constructor; auto. Qed.

Lemma step_wg (st st' : LoopState) (ev : event) :
  step st ev = Some st' -> WgInv st -> WgInv st'.
Proof.
  destruct st as [ss ch ts wg ce ph tx of]; unfold WgInv.
  intros H Hinv; destruct ev; simpl in *; step_cases H; subst;
    try rewrite live_count_app; try done;
    try (erewrite live_count_wait by eauto; done);
    try (erewrite <- live_count_exit by eauto; done).
Qed.

Lemma head_app_some {A} (l k : list A) (x : A) :
  head l = Some x -> head (l ++ k) = Some x.
Proof. destruct l; simpl; congruence. Qed.

Lemma step_chan (st st' : LoopState) (ev : event) :
  step st ev = Some st' -> ChanInv st -> ChanInv st'.
Proof.
  destruct st as [ss ch ts wg ce ph tx of]; unfold ChanInv.
  intros H Hinv; destruct ev; simpl in *; step_cases H;
    try (destruct Hinv as [[? ?]|[? [? ?]]]; simplify_eq/=);
    eauto using head_app_some;
    try (intros ?rr ?ee ?He; subst; edestruct Hinv as [? ?]; [reflexivity|];
         split; eauto using head_app_some);
    intros ?rr ?ee ?He; simplify_eq/=; auto.
Qed.

Lemma step_tx (st st' : LoopState) (ev : event) :
  step st ev = Some st' -> ls_tx st' = ls_tx st.
Proof.
  destruct st as [ss ch ts wg ce ph tx of].
  intros H; destruct ev; simpl in *; step_cases H; done.
Qed.

Lemma step_result (st st' : LoopState) (ev : event) (x : ret) :
  step st ev = Some st' -> result st = Some x -> result st' = Some x.
Proof.
  destruct st as [ss ch ts wg ce ph tx of]; unfold result.
  intros H Hr; destruct ev; simpl in *; step_cases H; done.
Qed.

Lemma step_returned (st st' : LoopState) (ev : event) :
  step st ev = Some st' -> ReturnedInv st -> ReturnedInv st'.
Proof.
  destruct st as [ss ch ts wg ce ph tx of]; unfold ReturnedInv.
  intros H Hinv r Hr; destruct ev; simpl in *; step_cases H; subst;
    try (erewrite Hinv; reflexivity); done.
Qed.

End LoopProps.

Module Engine.
Import SendState Loop LoopProps Scenario.

Lemma init_wg (tx : SignedTxn) (clk : Clock) (cfg : Config) (e0 : option go_error) :
  WgInv (init tx clk cfg e0).
Proof. reflexivity. Qed.

Lemma init_chan (tx : SignedTxn) (clk : Clock) (cfg : Config) (e0 : option go_error) :
  ChanInv (init tx clk cfg e0).
Proof. left. split; reflexivity. Qed.

Lemma run_tx (evs : list event) (st st' : LoopState) :
  run st evs = Some st' -> ls_tx st' = ls_tx st.
Proof.
  revert st. induction evs as [|ev evs IH]; intros st H; simpl in H; [by simplify_eq|].
  destruct (step st ev) as [st1|] eqn:E; [|done].
  rewrite (IH _ H). eapply step_tx; eauto.
Qed.

Lemma run_result (evs : list event) (st st' : LoopState) (x : ret) :
  run st evs = Some st' -> result st = Some x -> result st' = Some x.
Proof.
  intros H. refine (run_preserves (fun s => result s = Some x) _ evs st st' H).
  intros. eapply step_result; eauto.
Qed.

(** Claim C2 (corrected), counterexample. In [trace_late_offer] the second
    task offers its receipt after the loop has taken the first one: the
    [case receiptChan <- receipt] branch is taken (the offer is buffered,
    not dropped). In [trace_cancel_race] two tasks offer confirmed
    receipts, yet the loop takes its [ctx.Done()] case and the call returns
    no confirmation. *)
Lemma sendTx_offers_not_all_dropped :
  option_map (fun s => (ls_offers s, ls_chan s, ls_phase s)) (run st0 trace_late_offer)
    = Some ([(confirmed, true); (confirmed, true)], Some confirmed,
            Returned (Some confirmed, None))
  /\ option_map (fun s => (ls_offers s, ls_phase s)) (run st0 trace_cancel_race)
    = Some ([(confirmed, true); (confirmed, false)],
            Returned (None, Some ErrDeadlineExceeded)).
Proof. split; vm_compute; reflexivity. Qed.

(** Claim C2 (corrected). In every interleaving of [sendTx] and its tasks,
    the call decides at most one return value and never changes it; when
    that value carries a receipt, the error is nil and the receipt is the
    first one offered to [receiptChan], whose offer was accepted. *)
Theorem sendTx_returns_first_offer (tx : SignedTxn) (clk : Clock) (cfg : Config)
    (e0 : option go_error) (evs : list event) (st : LoopState)
    (Hrun : run (init tx clk cfg e0) evs = Some st) :
  (forall r e, result st = Some (Some r, e) -> e = None /\ head (ls_offers st) = Some (r, true))
  /\ (forall evs' st' x, run st evs' = Some st' -> result st = Some x -> result st' = Some x).
Proof.
  split.
  - intros r e Hr.
    assert (Hc : ChanInv st).
    { refine (run_preserves ChanInv _ evs _ _ Hrun (init_chan _ _ _ _)).
      intros; eapply step_chan; eauto. }
    unfold ChanInv, result in *. destruct (ls_phase st); simplify_eq; eauto.
  - intros evs' st' x H Hx. eapply run_result; eauto.
Qed.

Lemma sendTx_returns_first_offer_witness :
  exists st, run st0 trace_late_offer = Some st
             /\ head (ls_offers st) = Some (confirmed, true).
Proof.
  destruct (run st0 trace_late_offer) as [st|] eqn:E; [|vm_compute in E; discriminate].
  exists st. split; [reflexivity|].
  destruct (sendTx_returns_first_offer stx (stepClock 1) cfg None trace_late_offer st E)
    as [H _].
  apply (H confirmed None).
  vm_compute in E. injection E as <-. vm_compute. reflexivity.
Defined.

(** Claim C3. On a tick of the loop, in any reachable state: when the
    tracker is waiting for confirmation nothing happens; otherwise when it
    says abort, the call returns the abort error; otherwise exactly one
    task is added (the WaitGroup counter grows by one), publishing the
    transaction [sendTx] was called with, and nothing else changes. *)
Theorem sendTx_tick (tx : SignedTxn) (clk : Clock) (cfg : Config)
    (e0 : option go_error) (evs : list event) (st : LoopState)
    (Hrun : run (init tx clk cfg e0) evs = Some st)
    (Hloop : ls_phase st = Looping) :
  (IsWaitingForConfirmation (ls_send st) = true -> step st ETick = Some st)
  /\ (IsWaitingForConfirmation (ls_send st) = false ->
      ShouldAbortImmediately (ls_send st) = true ->
      exists st', step st ETick = Some st' /\ result st' = Some (None, Some abort_error))
  /\ (IsWaitingForConfirmation (ls_send st) = false ->
      ShouldAbortImmediately (ls_send st) = false ->
      exists st', step st ETick = Some st'
        /\ ls_tasks st' = ls_tasks st ++ [TPublishing tx]
        /\ ls_wg st' = S (ls_wg st)
        /\ ls_phase st' = Looping
        /\ ls_send st' = ls_send st
        /\ ls_chan st' = ls_chan st
        /\ ls_ctx_err st' = ls_ctx_err st
        /\ ls_offers st' = ls_offers st).
Proof.
  assert (Htx : ls_tx st = tx) by (rewrite (run_tx _ _ _ Hrun); reflexivity).
  unfold step, tick. rewrite Hloop.
  split_and!.
  - intros Hw. by rewrite Hw.
  - intros Hw Ha. rewrite Hw, Ha. eexists; split; [reflexivity|]. reflexivity.
  - intros Hw Ha. rewrite Hw, Ha. eexists; split; [reflexivity|].
    unfold spawn; simpl. rewrite Htx. split_and!; auto.
Qed.

Lemma sendTx_tick_witness :
  run st0 [] = Some st0 /\ ls_phase st0 = Looping
  /\ exists st', step st0 ETick = Some st' /\ ls_tasks st' = ls_tasks st0 ++ [TPublishing stx].
Proof.
  assert (Hr : run st0 [] = Some st0) by reflexivity.
  assert (Hp : ls_phase st0 = Looping) by reflexivity.
  split; [exact Hr|]. split; [exact Hp|].
  destruct (sendTx_tick stx (stepClock 1) cfg None [] st0 Hr Hp) as (_ & _ & H3).
  destruct (H3 ltac:(vm_compute; reflexivity) ltac:(vm_compute; reflexivity))
    as (st' & Hs & Ht & _).
  exists st'. split; assumption.
Defined.

Lemma run_wg (tx : SignedTxn) (clk : Clock) (cfg : Config) (e0 : option go_error)
    (evs : list event) (st : LoopState) :
  run (init tx clk cfg e0) evs = Some st -> WgInv st.
Proof.
  intros H. refine (run_preserves WgInv _ evs _ _ H (init_wg _ _ _ _)).
  intros; eapply step_wg; eauto.
Qed.

(** Claim C5. In every interleaving, when [sendTx] has returned (its
    deferred [wg.Wait()] has completed), the WaitGroup counter is zero and
    every goroutine it spawned has returned. *)
Theorem sendTx_no_task_outlives_call (tx : SignedTxn) (clk : Clock) (cfg : Config)
    (e0 : option go_error) (evs : list event) (st : LoopState) (r : ret)
    (Hrun : run (init tx clk cfg e0) evs = Some st)
    (Hret : ls_phase st = Returned r) :
  ls_wg st = 0 /\ Forall (fun t => t = TExited) (ls_tasks st).
Proof.
  pose proof (run_wg tx clk cfg e0 evs st Hrun) as Hwg. unfold WgInv in Hwg.
  assert (Hz : ls_wg st = 0).
  { refine (run_preserves ReturnedInv _ evs _ _ Hrun _ r Hret).
    - intros; eapply step_returned; eauto.
    - intros r' H'. discriminate. }
  split; [exact Hz|]. apply live_count_zero. lia.
Qed.

Lemma sendTx_no_task_outlives_call_witness :
  exists st, run st0 trace_cancel_race = Some st
             /\ Forall (fun t => t = TExited) (ls_tasks st).
Proof.
  destruct (run st0 trace_cancel_race) as [st|] eqn:E; [|vm_compute in E; discriminate].
  exists st. split; [reflexivity|].
  assert (Hp : ls_phase st = Returned (None, Some ErrDeadlineExceeded)).
  { vm_compute in E. injection E as <-. reflexivity. }
  exact (proj2 (sendTx_no_task_outlives_call stx (stepClock 1) cfg None
                  trace_cancel_race st _ E Hp)).
Defined.

(** Claim C4 (corrected), counterexample. The caller's context was
    cancelled at instant 0; at instant 5 [Send] is called and the backend's
    [SuggestedParams] fails. [craftTx] runs under [context.Background()], so
    the cancellation plays no part, and [Send] returns the wrapped build
    error, not [context.Canceled]. *)
Lemma send_cancelled_caller_build_error :
  let caller := Ctx.WithCancel (Some 0%Z) Ctx.Background in
  Ctx.Err caller 5 = Some ErrCanceled
  /\ fst (send co_params_fail cfg 5 caller candidate)
     = SendFailed (wrap "failed to create the tx"
                     (wrap "failed to get suggested params" (ErrOther "connection refused")))
  /\ fst (send co_params_fail cfg 5 caller candidate) <> SendFailed ErrCanceled.
Proof. vm_compute. split; [reflexivity|]. split; [reflexivity|]. discriminate. Qed.

(** Claim C4 (corrected). When crafting succeeded and [sendTx]'s loop
    takes its [ctx.Done()] case at instant [t], the call decides to return
    a nil receipt with its context's error; if the caller's context ended
    at [t0 <= t] with error [e], and before the [TxSendTimeout] deadline
    when one is configured, that error is exactly [e]. *)
Theorem send_ctx_done_returns_caller_error (co : Collaborators) (cfg : Config)
    (start : Time) (caller : Ctx.Context) (cand : TxCandidate) (ctx : Ctx.Context)
    (tx : SignedTxn) (calls : list backend_call) (t0 t : Time) (e : go_error)
    (st : LoopState)
    (Hsend : send co cfg start caller cand = (EnterSendTx ctx tx, calls))
    (Hcaller : Ctx.cause caller = Some (t0, e))
    (Hfirst : TxSendTimeout cfg = 0%Z \/ (t0 < start + TxSendTimeout cfg)%Z)
    (Ht : (t0 <= t)%Z)
    (Hloop : ls_phase st = Looping)
    (Herr : ls_ctx_err st = Ctx.Err (sendTx_ctx ctx) t) :
  Ctx.Err (sendTx_ctx ctx) t = Some e
  /\ exists st', step st EDone = Some st' /\ result st' = Some (None, Some e).
Proof.
  assert (Hc : Ctx.cause (sendTx_ctx ctx) = Some (t0, e)).
  { unfold send in Hsend.
    destruct (decide (TxSendTimeout cfg = 0%Z)) as [H0|H0];
      repeat (case_match; simplify_eq/=).
    - rewrite Hcaller. reflexivity.
    - rewrite Hcaller. destruct Hfirst as [Hf|Hf]; [contradiction|].
      unfold Ctx.earliest.
      destruct (Z.ltb_spec (start + TxSendTimeout cfg) t0); [lia|reflexivity]. }
  assert (HE : Ctx.Err (sendTx_ctx ctx) t = Some e).
  { unfold Ctx.Err. rewrite Hc. destruct (Z.leb_spec t0 t); [reflexivity|lia]. }
  split; [exact HE|].
  unfold step. rewrite Hloop, Herr, HE. eexists; split; reflexivity.
Qed.

Lemma send_ctx_done_returns_caller_error_witness :
  exists st', step (init stx (stepClock 1) cfg
                      (Ctx.Err (sendTx_ctx (Ctx.WithCancel (Some 3%Z) Ctx.Background)) 3))
                   EDone = Some st'
              /\ result st' = Some (None, Some ErrCanceled).
Proof.
  refine (proj2 (send_ctx_done_returns_caller_error co_ok cfg 0
            (Ctx.WithCancel (Some 3%Z) Ctx.Background) candidate
            (Ctx.WithCancel (Some 3%Z) Ctx.Background) stx
            [CallSuggestedParams Ctx.Background] 3 3 ErrCanceled
            (init stx (stepClock 1) cfg
               (Ctx.Err (sendTx_ctx (Ctx.WithCancel (Some 3%Z) Ctx.Background)) 3))
            _ _ _ _ _ _)).
  - vm_compute. reflexivity.
  - vm_compute. reflexivity.
  - left. vm_compute. reflexivity.
  - lia.
  - reflexivity.
  - reflexivity.
Defined.

(** Claim C6. When the [SuggestedParams] call or the signer fails, [send]
    fails before entering [sendTx]: the only backend call it issued is the
    one [SuggestedParams] request (no retry, no [SendTransaction]). *)
Theorem send_build_error_no_publish (co : Collaborators) (cfg : Config) (start : Time)
    (ctx : Ctx.Context) (cand : TxCandidate)
    (Hfail : (exists e, backend_SuggestedParams co Ctx.Background = inr e)
             \/ (exists sp ptx e, backend_SuggestedParams co Ctx.Background = inl sp
                   /\ MakePaymentTxn co (From cfg) (To cand) 0 (TxData cand) "" sp = inl ptx
                   /\ Signer co ptx = inr e)) :
  exists err, send co cfg start ctx cand = (SendFailed err, [CallSuggestedParams Ctx.Background]).
Proof.
  unfold send, craftTx.
  destruct Hfail as [[e He]|(sp & ptx & e & H1 & H2 & H3)].
  - destruct (decide (TxSendTimeout cfg = 0%Z)); rewrite He; eexists; reflexivity.
  - destruct (decide (TxSendTimeout cfg = 0%Z)); rewrite H1, H2, H3; eexists; reflexivity.
Qed.

Lemma send_build_error_no_publish_witness :
  exists err, send co_sign_fail cfg 0 Ctx.Background candidate
              = (SendFailed err, [CallSuggestedParams Ctx.Background]).
Proof.
  apply send_build_error_no_publish. right.
  exists mock_params, (mkTxn "SENDER" "SENDER" 0 [] mock_params), (ErrOther "invalid key").
  split; [reflexivity|]. split; reflexivity.
Defined.

(** Claim C7. A poll that returns an info with a non-empty [PoolError]
    records the id as not mined and changes nothing else: the task keeps
    polling, nothing is offered, and the loop's phase (so the call's
    outcome) is untouched. *)
Theorem queryReceipt_pool_error_not_fatal (st : LoopState) (i : nat) (tx : SignedTxn)
    (info : PendingTransactionInfoResponse)
    (Hi : ls_tasks st !! i = Some (TWaiting tx))
    (Hpool : PoolError info <> "") :
  exists st', step st (EPoll i (RpcOk (Some info))) = Some st'
    /\ ls_send st' = TxNotMined (Txid tx) (ls_send st)
    /\ ls_phase st' = ls_phase st
    /\ ls_tasks st' = ls_tasks st
    /\ ls_wg st' = ls_wg st
    /\ ls_chan st' = ls_chan st
    /\ ls_offers st' = ls_offers st.
Proof.
  unfold step. rewrite Hi. unfold queryReceipt.
  destruct (decide (ConfirmedRound info <= 0)%Z).
  - eexists; split; [reflexivity|]. destruct st; simpl; split_and!; reflexivity.
  - destruct (decide (PoolError info <> "")) as [_|Hn]; [|contradiction].
    eexists; split; [reflexivity|]. destruct st; simpl; split_and!; reflexivity.
Qed.

Lemma queryReceipt_pool_error_not_fatal_witness :
  exists st', step (default st0 (run st0 [EPublish 0 None]))
                   (EPoll 0 (RpcOk (Some (mkInfo "overspend" 0)))) = Some st'
              /\ ls_phase st' = Looping.
Proof.
  destruct (queryReceipt_pool_error_not_fatal (default st0 (run st0 [EPublish 0 None])) 0 stx
              (mkInfo "overspend" 0) ltac:(vm_compute; reflexivity) ltac:(discriminate))
    as (st' & Hs & _ & Hp & _).
  exists st'. split; [exact Hs|]. rewrite Hp. reflexivity.
Defined.

(** Claim C10. Whatever the caller's context, the only backend call of
    [craftTx] is [SuggestedParams] under [context.Background()], which has
    no deadline and is never done; the contexts of [SendTransaction] and
    [PendingTransactionInformation] have a deadline at most
    [NetworkTimeout] away and are done by then. *)
Theorem craftTx_params_under_background (co : Collaborators) (cfg : Config)
    (start : Time) (caller : Ctx.Context) (cand : TxCandidate) :
  snd (send co cfg start caller cand) = [CallSuggestedParams Ctx.Background]
  /\ (forall t : Time, Ctx.Err Ctx.Background t = None)
  /\ Ctx.Deadline Ctx.Background = None
  /\ (forall (c : Ctx.Context) (t : Time),
        exists d, Ctx.Deadline (network_ctx cfg c t) = Some d
                  /\ (d <= t + NetworkTimeout cfg)%Z)
  /\ (forall (c : Ctx.Context) (t : Time),
        Ctx.Err (network_ctx cfg c t) (t + NetworkTimeout cfg) <> None).
Proof.
  split_and!.
  - unfold send, craftTx.
    destruct (decide (TxSendTimeout cfg = 0%Z));
      repeat (case_match; simplify_eq/=); reflexivity.
  - reflexivity.
  - reflexivity.
  - intros c t. simpl. destruct (Ctx.Deadline c) as [dp|].
    + eexists; split; [reflexivity|]. lia.
    + eexists; split; [reflexivity|]. lia.
  - intros c t. unfold Ctx.Err. simpl.
    destruct (Ctx.cause c) as [[tc ec]|]; simpl.
    + destruct (Z.ltb_spec (t + NetworkTimeout cfg) tc).
      * rewrite Z.leb_refl. discriminate.
      * destruct (Z.leb_spec tc (t + NetworkTimeout cfg)); [discriminate|lia].
    + rewrite Z.leb_refl. discriminate.
Qed.

End Engine.

(** * Properties of the rest of the package *)

Module ErrorProps.
Import Errors Metrics.

Lemma prefix_app (s t : string) : String.prefix s (s ++ t) = true.
Proof.
  induction s as [|a s IH]; simpl; [destruct t; reflexivity|].
  destruct (Ascii.ascii_dec a a); [exact IH|contradiction].
Qed.

Lemma Contains_app (a b c : string) : Contains (a ++ b ++ c) b = true.
Proof.
  induction a as [|x a IH]; simpl.
  - pose proof (prefix_app b c) as Hp.
    revert Hp. destruct (b ++ c)%string as [|x s]; simpl; intros Hp; rewrite Hp; reflexivity.
  - rewrite IH. apply orb_true_r.
Qed.

Lemma append_nil_r (s : string) : (s ++ "")%string = s.
Proof.
  induction s as [|a s IH]; [reflexivity|].
  change (String a (s ++ "") = String a s)%string. f_equal; exact IH.
Qed.

Lemma append_assoc (a b c : string) : (a ++ (b ++ c))%string = ((a ++ b) ++ c)%string.
Proof.
  induction a as [|x a IH]; [reflexivity|].
  change (String x (a ++ (b ++ c)) = String x ((a ++ b) ++ c))%string. f_equal; exact IH.
Qed.

Lemma Contains_suffix (a b : string) : Contains (a ++ b) b = true.
Proof. pose proof (Contains_app a b "") as H. by rewrite append_nil_r in H. Qed.

Lemma Contains_refl (s : string) : Contains s s = true.
Proof. exact (Contains_suffix "" s). Qed.

(** [errStringMatch]: two nils match, a nil and a non-nil error never
    match, and every error matches itself. *)
Theorem errStringMatch_nil_and_self (e : go_error) :
  errStringMatch None None = true
  /\ errStringMatch (Some e) None = false
  /\ errStringMatch None (Some e) = false
  /\ errStringMatch (Some e) (Some e) = true.
Proof. split_and!; try reflexivity. apply Contains_refl. Qed.

(** [errStringMatch]: an error wrapped with [fmt.Errorf("<prefix>: %w", e)]
    still matches [e], whatever the prefix; so a wrapped
    [context.Canceled] is classified as a cancellation. *)
Theorem errStringMatch_wrapped (prefix : string) (e : go_error) :
  errStringMatch (Some (wrap prefix e)) (Some e) = true.
Proof.
  unfold errStringMatch, wrap. simpl Error at 1.
  rewrite append_assoc. destruct e; apply Contains_suffix.
Qed.

(** The metrics [publishAndWaitForTx] records after [SendTransaction]: on
    success one publish event and nothing else; on an error one RPC error
    and one increment of the publish-error counter under a non-empty label,
    which is ["context_cancelled"] exactly when the error's message
    contains ["context canceled"], and the publish event is not recorded. *)
Theorem publish_metrics_counts (err : option go_error) (t : TxMetrics) :
  (err = None ->
     publishEvent (publish_metrics err t) = S (publishEvent t)
     /\ txPublishError (publish_metrics err t) = txPublishError t
     /\ rpcError (publish_metrics err t) = rpcError t)
  /\ (forall e, err = Some e ->
     publishEvent (publish_metrics err t) = publishEvent t
     /\ rpcError (publish_metrics err t) = S (rpcError t)
     /\ exists label, label <> ""
        /\ txPublishError (publish_metrics err t)
           = <[label := S (default 0 (txPublishError t !! label))]> (txPublishError t)
        /\ (label = "context_cancelled" <-> Contains (Error e) "context canceled" = true)).
Proof.
  split.
  - intros ->. unfold publish_metrics, TxPublished. case_decide; [congruence|].
    split_and!; reflexivity.
  - intros e ->. unfold publish_metrics, errStringMatch. simpl.
    destruct (Contains (Error e) "context canceled") eqn:Hc;
      unfold TxPublished, RPCError; (case_decide; [|congruence]); simpl;
      (split_and!; [reflexivity|reflexivity|]).
    + exists "context_cancelled". split_and!; [done|reflexivity|].
      split; reflexivity.
    + exists "unknown_error". split_and!; [done|reflexivity|].
      split; [discriminate|congruence].
Qed.

Lemma publish_metrics_counts_witness :
  exists label, label <> ""
    /\ txPublishError (publish_metrics (Some (wrap "send" ErrCanceled))
                                       (mkTxMetrics 0 ∅ 0))
       = <[label := 1]> ∅
    /\ label = "context_cancelled".
Proof.
  destruct (publish_metrics_counts (Some (wrap "send" ErrCanceled)) (mkTxMetrics 0 ∅ 0))
    as [_ H].
  destruct (H (wrap "send" ErrCanceled) eq_refl) as (_ & _ & label & Hl & Ht & Hiff).
  exists label. split; [exact Hl|]. split.
  - rewrite Ht. reflexivity.
  - apply Hiff. vm_compute. reflexivity.
Defined.

(** [receiptStatusString]: it dereferences a nil receipt (no result);
    otherwise the receipt is ["success"] exactly when it has no pool error
    and a positive confirmed round, ["failed"] exactly when it has a pool
    error, and ["unknown_status"] exactly when it has neither. *)
Theorem receiptStatusString_cases (receipt : option PendingTransactionInfoResponse) :
  (receipt = None -> receiptStatusString receipt = None)
  /\ (forall r, receipt = Some r ->
      (receiptStatusString receipt = Some "success"
         <-> PoolError r = "" /\ (0 < ConfirmedRound r)%Z)
      /\ (receiptStatusString receipt = Some "failed" <-> PoolError r <> "")
      /\ (receiptStatusString receipt = Some "unknown_status"
         <-> PoolError r = "" /\ (ConfirmedRound r <= 0)%Z)).
Proof.
  split; [intros ->; reflexivity|].
  intros r ->. unfold receiptStatusString.
  destruct (decide (PoolError r = "")) as [Hp|Hp];
    destruct (decide (0 < ConfirmedRound r)%Z) as [Hc|Hc];
    repeat case_decide; try tauto;
    split_and!; split; intros Hx; try done; try tauto; try lia;
    try (split; [assumption|lia]); destruct Hx; try done; lia.
Qed.

End ErrorProps.

Module ConfigProps.

(** [CLIConfig.Check] passes exactly when the L1 RPC url is set, the four
    durations it inspects are non-zero (a negative duration passes), and
    the signer configuration's own check passes; [TxSendTimeout] is not
    inspected. *)
Theorem Check_ok_iff (signerCheck : option go_error) (m : CLI.CLIConfig) :
  CLI.Check signerCheck m = None
  <-> CLI.L1RPCURL m <> "" /\ CLI.NetworkTimeout m <> 0%Z /\ CLI.ResubmissionTimeout m <> 0%Z
      /\ CLI.ReceiptQueryInterval m <> 0%Z /\ CLI.TxNotInMempoolTimeout m <> 0%Z
      /\ signerCheck = None.
Proof.
  unfold CLI.Check.
  destruct (decide (CLI.L1RPCURL m = "")) as [H1|H1];
    [split; [discriminate|intros (? & _); contradiction]|].
  destruct (decide (CLI.NetworkTimeout m = 0%Z)) as [H2|H2];
    [split; [discriminate|intros (_ & ? & _); contradiction]|].
  destruct (decide (CLI.ResubmissionTimeout m = 0%Z)) as [H3|H3];
    [split; [discriminate|intros (_ & _ & ? & _); contradiction]|].
  destruct (decide (CLI.ReceiptQueryInterval m = 0%Z)) as [H4|H4];
    [split; [discriminate|intros (_ & _ & _ & ? & _); contradiction]|].
  destruct (decide (CLI.TxNotInMempoolTimeout m = 0%Z)) as [H5|H5];
    [split; [discriminate|intros (_ & _ & _ & _ & ? & _); contradiction]|].
  split; [intros ->; split_and!; auto|intros (_ & _ & _ & _ & _ & ->); reflexivity].
Qed.

(** [NewConfig] yields a [Config] exactly when the configuration passes
    [Check], the algod client can be created and the signer can be built;
    the [Config] then copies the five durations of the [CLI.CLIConfig] and
    takes the signer's address as [From]. *)
Theorem NewConfig_ok_iff (signerCheck : option go_error)
    (NewAlgodClient : string -> string -> option go_error)
    (CreateSignerFn : string -> string + go_error) (cfg : CLI.CLIConfig) (c : Config) :
  CLI.NewConfig signerCheck NewAlgodClient CreateSignerFn cfg = inl c
  <-> CLI.Check signerCheck cfg = None
      /\ NewAlgodClient (CLI.L1RPCURL cfg) (CLI.L1RPCToken cfg) = None
      /\ CreateSignerFn (CLI.PrivateKey cfg) = inl (From c)
      /\ ResubmissionTimeout c = CLI.ResubmissionTimeout cfg
      /\ ReceiptQueryInterval c = CLI.ReceiptQueryInterval cfg
      /\ NetworkTimeout c = CLI.NetworkTimeout cfg
      /\ TxSendTimeout c = CLI.TxSendTimeout cfg
      /\ TxNotInMempoolTimeout c = CLI.TxNotInMempoolTimeout cfg.
Proof.
  unfold CLI.NewConfig. split.
  - intros H. repeat case_match; simplify_eq/=. split_and!; reflexivity.
  - intros (Hc & Hd & Hs & H1 & H2 & H3 & H4 & H5). rewrite Hc, Hd, Hs.
    destruct c; simpl in *; subst; reflexivity.
Qed.

(** Every error of [NewConfig] is the error of the first failing stage,
    wrapped with that stage's message: an invalid configuration is reported
    before any client is created, and a failed client before the signer is
    built. *)
Theorem NewConfig_error_stage (signerCheck : option go_error)
    (NewAlgodClient : string -> string -> option go_error)
    (CreateSignerFn : string -> string + go_error) (cfg : CLI.CLIConfig) (e : go_error)
    (H : CLI.NewConfig signerCheck NewAlgodClient CreateSignerFn cfg = inr e) :
  exists e0,
    (CLI.Check signerCheck cfg = Some e0 /\ e = wrap "invalid config" e0)
    \/ (CLI.Check signerCheck cfg = None /\ NewAlgodClient (CLI.L1RPCURL cfg) (CLI.L1RPCToken cfg) = Some e0
        /\ e = wrap "could not dial algod client" e0)
    \/ (CLI.Check signerCheck cfg = None /\ NewAlgodClient (CLI.L1RPCURL cfg) (CLI.L1RPCToken cfg) = None
        /\ CreateSignerFn (CLI.PrivateKey cfg) = inr e0 /\ e = wrap "could not init signer" e0).
Proof.
  unfold CLI.NewConfig in H.
  destruct (CLI.Check signerCheck cfg) as [e0|] eqn:Hc.
  - simplify_eq. exists e0. left. split; reflexivity.
  - destruct (NewAlgodClient (CLI.L1RPCURL cfg) (CLI.L1RPCToken cfg)) as [e0|] eqn:Hd.
    + simplify_eq. exists e0. right; left. split_and!; reflexivity.
    + destruct (CreateSignerFn (CLI.PrivateKey cfg)) as [from|e0] eqn:Hs; [discriminate|].
      simplify_eq. exists e0. right; right. split_and!; reflexivity.
Qed.

Lemma NewConfig_error_stage_witness :
  exists e0, e0 = ErrOther "must provide a L1 RPC url".
Proof.
  destruct (NewConfig_error_stage None (fun _ _ => None) (fun _ => inl "A")
              (CLI.mkCLIConfig "" "" "" "" "" "" "" 1 1 1 0 1)
              (wrap "invalid config" (ErrOther "must provide a L1 RPC url"))
              ltac:(vm_compute; reflexivity))
    as [e0 [[Hc He] | [[Hc _] | [Hc _]]]].
  - exists e0. vm_compute in Hc. congruence.
  - vm_compute in Hc. discriminate.
  - vm_compute in Hc. discriminate.
Defined.

End ConfigProps.

Module AlgoProps.
Import Algo Algod.

(** [L1BlockRef.ParentID] on a [uint64] block number: the parent's hash,
    and the number one below, saturating at 0 (the genesis block is its
    own parent number), so the subtraction never wraps around. *)
Theorem ParentID_saturates (id : L1BlockRef)
    (Hn : (0 <= Number id < uint64_modulus)%Z) :
  BlockID.Hash (ParentID id) = ParentHash id
  /\ BlockID.Number (ParentID id) = Z.max 0 (Number id - 1)
  /\ (0 <= BlockID.Number (ParentID id) < uint64_modulus)%Z
  /\ ((0 < Number id)%Z -> (BlockID.Number (ParentID id) + 1 = BlockID.Number (ID id))%Z).
Proof.
  unfold ParentID, ID; simpl. case_decide.
  - unfold uint64_wrap. rewrite Z.mod_small by lia. split_and!; try reflexivity; lia.
  - split_and!; try reflexivity; lia.
Qed.

Lemma ParentID_saturates_witness :
  BlockID.Number (ParentID (mkL1BlockRef "H" 0 "P" 0)) = 0%Z.
Proof.
  destruct (ParentID_saturates (mkL1BlockRef "H" 0 "P" 0)
              ltac:(vm_compute; split; congruence)) as (_ & Hn & _).
  rewrite Hn. reflexivity.
Defined.

(** [HeaderByNumber] on success: round 0 first asks the node's status and
    uses its last round, any other round is used as given; the block and
    the block hash are both asked for that round, and the reference carries
    that hash, the block's round and the encoded branch. *)
Theorem HeaderByNumber_ok (enc : list Byte.byte -> string) (c : AlgodApi) (round : Z)
    (ref : L1BlockRef) (calls : list algod_call)
    (H : HeaderByNumber enc c round = ((ref, None), calls)) :
  exists r b,
    (if decide (round = 0%Z) then Status c = inl r /\ calls = [CallStatus; CallBlock r; CallGetBlockHash r]
     else r = round /\ calls = [CallBlock r; CallGetBlockHash r])
    /\ BlockAt c r = inl b
    /\ GetBlockHash c r = inl (Hash ref)
    /\ Number ref = Round b
    /\ ParentHash ref = enc (Branch b).
Proof.
  unfold HeaderByNumber in H.
  assert (Hat : forall r x cs, header_at enc c r = ((x, None), cs) ->
            exists b, cs = [CallBlock r; CallGetBlockHash r] /\ BlockAt c r = inl b
                      /\ GetBlockHash c r = inl (Hash x) /\ Number x = Round b
                      /\ ParentHash x = enc (Branch b)).
  { intros r x cs Hh. unfold header_at in Hh.
    destruct (BlockAt c r) as [b|e] eqn:Hb; [|discriminate].
    destruct (GetBlockHash c r) as [h|e] eqn:Hg; [|discriminate].
    simplify_eq/=. exists b. split_and!; reflexivity. }
  case_decide.
  - destruct (Status c) as [lr|e] eqn:Hs; [|discriminate].
    destruct (header_at enc c lr) as [[x o] cs] eqn:Hh. simplify_eq/=.
    destruct (Hat lr ref cs Hh) as (b & -> & ? & ? & ? & ?).
    exists lr, b. split_and!; auto.
  - destruct (Hat round ref calls H) as (b & -> & ? & ? & ? & ?).
    exists round, b. split_and!; auto.
Qed.

(** The node of the witnesses: last round 7, every block found. *)
Definition api_ok : AlgodApi :=
  mkAlgodApi (inl 7%Z) (fun r => inl (mkBlock r 100 [])) (fun _ => inl "HASH").

Lemma HeaderByNumber_ok_witness :
  exists r b, Status api_ok = inl r /\ BlockAt api_ok r = inl b.
Proof.
  destruct (HeaderByNumber (fun _ => "") api_ok 0) as [[ref o] calls] eqn:E.
  vm_compute in E. injection E as <- <- <-.
  destruct (HeaderByNumber_ok (fun _ => "") api_ok 0 (mkL1BlockRef "HASH" 7 "" 100)
              [CallStatus; CallBlock 7; CallGetBlockHash 7] eq_refl)
    as (r & b & Hc & Hb & _).
  simpl in Hc. destruct Hc as [Hs _]. exists r, b. split; assumption.
Defined.




End AlgoProps.

Module OldTxmgrProps.
Import Loop OldTxmgr.

(** The earlier [waitConfirmed] ends in one of three ways: with a receipt
    of a positive confirmed round that the node returned, the id then being
    recorded as mined; with a ["Pool error: ..."] error carrying the node's
    non-empty pool error, the id then being recorded as not mined; or with
    the context's error from a [ctx.Done()] case. *)
Theorem waitConfirmed_endings (txid : string) (ss : option OldSendState)
    (polls : list (rpc_result * option go_error))
    (r : option PendingTransactionInfoResponse) (e : option go_error) (ss' : option OldSendState)
    (H : waitConfirmed txid ss polls = (Some (r, e), ss')) :
  (exists info, r = Some info /\ e = None /\ (0 < ConfirmedRound info)%Z
     /\ RpcOk (Some info) ∈ polls.*1 /\ (forall m, ss' = Some m -> txid ∈ m))
  \/ (r = None /\ exists p, p <> "" /\ e = Some (ErrOther ("Pool error: " ++ p))
        /\ (forall m, ss' = Some m -> txid ∉ m))
  \/ (r = None /\ exists e', e = Some e' /\ Some e' ∈ polls.*2).
Proof.
  revert ss H. induction polls as [|[res sel] rest IH]; intros ss H; simpl in H; [discriminate|].
  assert (Hcont : forall s, (match sel with
                             | Some e0 => (Some (None, Some e0), s)
                             | None => waitConfirmed txid s rest
                             end) = (Some (r, e), ss') ->
            (exists info, r = Some info /\ e = None /\ (0 < ConfirmedRound info)%Z
               /\ RpcOk (Some info) ∈ ((res, sel) :: rest).*1 /\ (forall m, ss' = Some m -> txid ∈ m))
            \/ (r = None /\ exists p, p <> "" /\ e = Some (ErrOther ("Pool error: " ++ p))
                  /\ (forall m, ss' = Some m -> txid ∉ m))
            \/ (r = None /\ exists e', e = Some e' /\ Some e' ∈ ((res, sel) :: rest).*2)).
  { intros s Hs. destruct sel as [e0|].
    - simplify_eq. right; right. split; [reflexivity|]. exists e0. split; [reflexivity|].
      simpl. left.
    - destruct (IH s Hs) as [(info & ? & ? & ? & ? & ?)|[|(? & e' & ? & ?)]].
      + left. exists info. simpl. split_and!; auto. right. assumption.
      + right; left. assumption.
      + right; right. split; [assumption|]. exists e'. simpl. split; [assumption|]. right. assumption. }
  destruct res as [err|[info|]].
  - apply (Hcont ss H).
  - case_decide.
    + simplify_eq. left. exists info. split_and!; auto.
      * simpl. left.
      * intros m Hm. destruct ss; simpl in Hm; simplify_eq. set_solver.
    + case_decide.
      * simplify_eq. right; left. split; [reflexivity|]. exists (PoolError info).
        split_and!; auto. intros m Hm. destruct ss; simpl in Hm; simplify_eq. set_solver.
      * apply (Hcont ss H).
  - apply (Hcont _ H).
Qed.

Lemma waitConfirmed_endings_witness :
  exists info, (0 < ConfirmedRound info)%Z.
Proof.
  assert (Hw : waitConfirmed "TX1" (Some ∅)
                 [(RpcOk None, None); (RpcOk (Some (mkInfo "" 4)), None)]
               = (Some (Some (mkInfo "" 4), None), Some {[ "TX1" ]}))
    by (vm_compute; reflexivity).
  destruct (waitConfirmed_endings "TX1" (Some ∅)
              [(RpcOk None, None); (RpcOk (Some (mkInfo "" 4)), None)]
              (Some (mkInfo "" 4)) None (Some {[ "TX1" ]}) Hw)
    as [(info & _ & _ & Hc & _)|[[Hr _]|[Hr _]]]; [|discriminate|discriminate].
  exists info. exact Hc.
Defined.

(** On an answer carrying a pool error, the two managers differ: the
    earlier [waitConfirmed] returns at once, with the receipt when the
    round is positive (the round is checked first) and with a
    ["Pool error: ..."] error otherwise, while the later [queryReceipt]
    returns no receipt either way and its [waitMined] keeps polling. *)
Theorem pool_error_old_vs_new (info : PendingTransactionInfoResponse)
    (Hp : PoolError info <> "") :
  (forall txid ss sel rest,
     fst (waitConfirmed txid ss ((RpcOk (Some info), sel) :: rest))
     = Some (if decide (0 < ConfirmedRound info)%Z then (Some info, None)
             else (None, Some (ErrOther ("Pool error: " ++ PoolError info)))))
  /\ (forall txid s, fst (queryReceipt txid (RpcOk (Some info)) s) = None).
Proof.
  split.
  - intros txid ss sel rest. simpl. case_decide; [reflexivity|].
    case_decide; [reflexivity|contradiction].
  - intros txid s. unfold queryReceipt. case_decide; [reflexivity|].
    case_decide; [reflexivity|contradiction].
Qed.

Lemma pool_error_old_vs_new_witness :
  fst (waitConfirmed "TX1" None [(RpcOk (Some (mkInfo "rejected" 5)), None)])
    = Some (Some (mkInfo "rejected" 5), None).
Proof.
  destruct (pool_error_old_vs_new (mkInfo "rejected" 5) ltac:(simpl; discriminate))
    as [H _].
  rewrite (H "TX1" None None []). reflexivity.
Defined.

End OldTxmgrProps.

Module MockProps.
Import Loop MockBackend.

(** The tests' mock backend: after [confirm(txid)] with a non-empty id
    (and a height that does not wrap), [queryReceipt] accepts the answer
    for that id as a receipt of the new height with no pool error and
    records the id as mined; [confirm] leaves the answers for every other
    id unchanged, and [confirm("")] records no transaction. *)
Theorem confirm_then_queryReceipt (txid : string) (b : mockBackend) (ss : SendState.SendState)
    (Htx : txid <> "") (Hh : (0 <= blockHeight b /\ blockHeight b + 1 < uint64_modulus)%Z) :
  queryReceipt txid (PendingTransactionInformation (confirm txid b) txid) ss
    = (Some (mkInfo "" (blockHeight b + 1)), SendState.TxMined txid ss)
  /\ (forall t, t <> txid ->
      PendingTransactionInformation (confirm txid b) t = PendingTransactionInformation b t)
  /\ (forall t, PendingTransactionInformation (confirm "" b) t = PendingTransactionInformation b t).
Proof.
  unfold PendingTransactionInformation, confirm; simpl.
  assert (Hw : uint64_wrap (blockHeight b + 1) = (blockHeight b + 1)%Z)
    by (unfold uint64_wrap; apply Z.mod_small; lia).
  split_and!.
  - case_decide; [|contradiction]. rewrite lookup_insert_eq.
    cbn [poolError confirmedRound]. rewrite Hw. unfold queryReceipt. case_decide as Hle; [simpl in Hle; lia|]. case_decide; [done|]. reflexivity.
  - intros t Ht. case_decide; [|contradiction]. rewrite lookup_insert_ne by congruence.
    reflexivity.
  - intros t. repeat case_decide; try done; reflexivity.
Qed.

Lemma confirm_then_queryReceipt_witness :
  fst (queryReceipt "TX1" (PendingTransactionInformation (confirm "TX1" newMockBackend) "TX1")
                    Scenario.st0.(ls_send))
    = Some (mkInfo "" 1).
Proof.
  destruct (confirm_then_queryReceipt "TX1" newMockBackend Scenario.st0.(ls_send)
              ltac:(discriminate) ltac:(vm_compute; split; congruence)) as [H _].
  rewrite H. reflexivity.
Defined.

End MockProps.

Module LoopInvProps.
Import SendState Loop LoopProps LoopInv Scenario.

Lemma queryReceipt_confirmed (txid : string) (res : rpc_result) (ss ss' : SendState)
    (info : PendingTransactionInfoResponse) :
  queryReceipt txid res ss = (Some info, ss') -> confirmed_receipt info.
Proof.
  unfold queryReceipt, confirmed_receipt. intros H.
  repeat case_match; repeat case_decide; simplify_eq; split; [lia|].
  destruct (decide (PoolError info = "")); [assumption|contradiction].
Qed.

Lemma queryReceipt_mined (txid : string) (res : rpc_result) (ss : SendState) :
  minedTxs ss ⊆ {[txid]} -> minedTxs (queryReceipt txid res ss).2 ⊆ {[txid]}.
Proof.
  unfold queryReceipt. intros H.
  repeat case_match; repeat case_decide; simpl; set_solver.
Qed.

Lemma step_receipt (st st' : LoopState) (ev : event) :
  step st ev = Some st' -> ReceiptInv st -> ReceiptInv st'.
Proof.
  destruct st as [ss ch ts wg ce ph tx of]; unfold ReceiptInv, result.
  intros H (Ho & Hc & Hr); destruct ev; simpl in *; step_cases H;
    split_and!; eauto; try (intros; simplify_eq; eauto; fail);
    try (apply Forall_app; split; [assumption|];
         constructor; [|constructor]; simpl; eapply queryReceipt_confirmed; eauto).
  all: try (intros r0 Hr0; simplify_eq; eapply queryReceipt_confirmed; eauto).
Qed.

(** Every receipt [sendTx] returns is confirmed with no pool error, so the
    metrics report it as ["success"] and never dereference a nil
    receipt. *)
Theorem sendTx_receipt_success (tx : SignedTxn) (clk : Clock) (cfg : Config)
    (e0 : option go_error) (evs : list event) (st : LoopState)
    (r : PendingTransactionInfoResponse) (e : option go_error)
    (Hrun : run (init tx clk cfg e0) evs = Some st)
    (Hres : result st = Some (Some r, e)) :
  Metrics.receiptStatusString (Some r) = Some "success".
Proof.
  assert (Hi : ReceiptInv st).
  { refine (run_preserves ReceiptInv _ evs _ _ Hrun _).
    - intros; eapply step_receipt; eauto.
    - split_and!; [constructor|discriminate|discriminate]. }
  destruct Hi as (_ & _ & Hr). destruct (Hr r e Hres) as [Hpos Hpool].
  unfold Metrics.receiptStatusString. case_decide; [reflexivity|].
  exfalso. auto.
Qed.

Lemma sendTx_receipt_success_witness :
  Metrics.receiptStatusString (Some confirmed) = Some "success".
Proof.
  destruct (run st0 trace_late_offer) as [st|] eqn:E; [|vm_compute in E; discriminate].
  apply (sendTx_receipt_success stx (stepClock 1) cfg None trace_late_offer st confirmed None E).
  vm_compute in E. injection E as <-. vm_compute. reflexivity.
Defined.

Lemma step_txinv (st st' : LoopState) (ev : event) :
  step st ev = Some st' -> TxInv st -> TxInv st'.
Proof.
  destruct st as [ss ch ts wg ce ph tx of]; unfold TxInv.
  intros H (Ht & Hm); destruct ev; simpl in *; step_cases H;
    split; auto; try (apply Forall_insert; auto; fail);
    try (apply Forall_app; split; [assumption|]; constructor; [reflexivity|constructor]).
  all: pose proof (Forall_lookup_1 _ _ _ _ Ht H0) as Hx; simpl in Hx; subst tx0;
    first [ apply Forall_insert; [assumption|reflexivity]
          | match goal with Hq : queryReceipt _ _ _ = _ |- _ =>
              pose proof (queryReceipt_mined (Txid tx) res ss Hm) as Hq';
              rewrite Hq in Hq'; exact Hq' end ].
Qed.

(** Throughout [sendTx], every goroutine publishes or waits for the very
    transaction the call was given (a resubmission is the same signed
    transaction), and the progress tracker records no id but that
    transaction's, so it is waiting for confirmation exactly when that id
    is recorded as mined. *)
Theorem sendTx_single_tx (tx : SignedTxn) (clk : Clock) (cfg : Config)
    (e0 : option go_error) (evs : list event) (st : LoopState)
    (Hrun : run (init tx clk cfg e0) evs = Some st) :
  Forall (fun t => t = TExited \/ t = TPublishing tx \/ t = TWaiting tx) (ls_tasks st)
  /\ minedTxs (ls_send st) ⊆ {[Txid tx]}
  /\ (IsWaitingForConfirmation (ls_send st) = true <-> Txid tx ∈ minedTxs (ls_send st)).
Proof.
  assert (Htx : ls_tx st = tx) by exact (Engine.run_tx evs _ _ Hrun).
  assert (Hi : TxInv st).
  { refine (run_preserves TxInv _ evs _ _ Hrun _).
    - intros; eapply step_txinv; eauto.
    - split; [repeat constructor|simpl; set_solver]. }
  destruct Hi as [Ht Hm]. rewrite Htx in Ht, Hm. split_and!.
  - eapply Forall_impl; [exact Ht|]. intros [] Hx; simpl in Hx; subst; auto.
  - exact Hm.
  - unfold IsWaitingForConfirmation. rewrite bool_decide_eq_true. split.
    + intros Hs. destruct (size_pos_elem_of _ Hs) as [y Hy].
      pose proof (Hm y Hy) as Hy'. apply elem_of_singleton in Hy'. by subst.
    + intros Hx. assert (Hsub : {[Txid tx]} ⊆ minedTxs (ls_send st)) by set_solver.
      apply subseteq_size in Hsub. rewrite size_singleton in Hsub. lia.
Qed.

Lemma sendTx_single_tx_witness :
  exists st, run st0 trace_late_offer = Some st
             /\ (IsWaitingForConfirmation (ls_send st) = true <-> "TX1" ∈ minedTxs (ls_send st)).
Proof.
  destruct (run st0 trace_late_offer) as [st|] eqn:E; [|vm_compute in E; discriminate].
  exists st. split; [reflexivity|].
  destruct (sendTx_single_tx stx (stepClock 1) cfg None trace_late_offer st E) as (_ & _ & H).
  exact H.
Defined.

Lemma queryReceipt_count (txid : string) (res : rpc_result) (ss : SendState) :
  successFullPublishCount (queryReceipt txid res ss).2 = successFullPublishCount ss.
Proof. unfold queryReceipt. repeat case_match; repeat case_decide; reflexivity. Qed.

Lemma step_count (st st' : LoopState) (ev : event) :
  step st ev = Some st' ->
  successFullPublishCount (ls_send st')
  = match ev with
    | EPublish _ None => uint64_wrap (successFullPublishCount (ls_send st) + 1)
    | _ => successFullPublishCount (ls_send st)
    end.
Proof.
  destruct st as [ss ch ts wg ce ph tx of].
  intros H; destruct ev as [| | |i [e|]|i res|i|e|]; simpl in *; step_cases H;
    try reflexivity;
    match goal with Hq : queryReceipt _ _ _ = _ |- _ =>
      pose proof (queryReceipt_count (Txid tx0) res ss) as Hc; rewrite Hq in Hc; exact Hc end.
Qed.

Lemma run_count (evs : list event) (st st' : LoopState) (c : Z) :
  run st evs = Some st' ->
  successFullPublishCount (ls_send st) = uint64_wrap c ->
  successFullPublishCount (ls_send st') = uint64_wrap (c + Z.of_nat (successful_publishes evs)).
Proof.
  revert st c. induction evs as [|ev evs IH]; intros st c H Hc; simpl in H.
  - simplify_eq. simpl. by rewrite Z.add_0_r.
  - destruct (step st ev) as [st1|] eqn:E; [|done].
    pose proof (step_count _ _ _ E) as Hs.
    destruct ev as [| | |i [e|]|i res|i|e|]; simpl;
      try (rewrite (IH st1 c H); [reflexivity|]; rewrite Hs; exact Hc).
    rewrite (IH st1 (c + 1)%Z H).
    + f_equal. lia.
    + rewrite Hs, Hc. unfold uint64_wrap. by rewrite Zplus_mod_idemp_l.
Qed.

(** The tracker's count of successful publishes equals, modulo 2^64, the
    number of [SendTransaction] calls of the run that returned no error. *)
Theorem sendTx_publish_count (tx : SignedTxn) (clk : Clock) (cfg : Config)
    (e0 : option go_error) (evs : list event) (st : LoopState)
    (Hrun : run (init tx clk cfg e0) evs = Some st) :
  successFullPublishCount (ls_send st) = uint64_wrap (Z.of_nat (successful_publishes evs)).
Proof.
  rewrite (run_count evs _ _ 0 Hrun); [reflexivity|]. reflexivity.
Qed.

Lemma sendTx_publish_count_witness :
  exists st, run st0 trace_late_offer = Some st /\ successFullPublishCount (ls_send st) = 2%Z.
Proof.
  destruct (run st0 trace_late_offer) as [st|] eqn:E; [|vm_compute in E; discriminate].
  exists st. split; [reflexivity|].
  rewrite (sendTx_publish_count stx (stepClock 1) cfg None trace_late_offer st E).
  vm_compute. reflexivity.
Defined.

End LoopInvProps.
